(** * tuin_tool: the storage module and the body-search script

    A shallow embedding of [lib/tuin_store.py] (the declarative schema, the
    [DirectConn] helper and the session functions) and of [find_link.py] (the
    script that lists the titles of the Content rows whose body matches a
    pattern), together with the properties stated about them.

    The Python code drives three libraries: [os] (one call, [os.remove]),
    [sqlite3] / SQLite (opening a database file, evaluating [LIKE]) and
    SQLAlchemy ([create_engine], [sessionmaker], [Query], [create_all]).  Their
    behaviour is modelled below next to the code that calls them.  Files are
    known by their path as it is written: two different paths are two
    different files. *)

From Stdlib Require Import DecimalString.
From stdpp Require Import gmap strings list fin_maps.

Local Open Scope N_scope.

(** ** Text values

    A Python [str] is a sequence of Unicode code points. *)

Abbreviation char := N.
Abbreviation pystr := (list N).

(** An ASCII literal of the source, as a [str]. *)
Definition lit (s : string) : pystr :=
  map Ascii.N_of_ascii (String.list_ascii_of_string s).

Definition percent : char := 37.      (* '%' *)
Definition underscore : char := 95.   (* '_' *)

(** [str(n)] and ["{c}".format(c=n)] for a Python [int]. *)
Definition str_int (n : Z) : pystr :=
  lit (NilZero.string_of_int (Z.to_int n)).

(** [sub in s] for two [str] values. *)
Fixpoint startswith (sub s : pystr) : bool :=
  match sub, s with
  | [], _ => true
  | _ :: _, [] => false
  | c :: sub', d :: s' => (c =? d) && startswith sub' s'
  end.

Fixpoint contains (sub s : pystr) : bool :=
  startswith sub s ||
  match s with
  | [] => false
  | _ :: s' => contains sub s'
  end.

(** What SQLite receives for a [str]: its UTF-8 encoding.  A code point that
    is no Unicode scalar value (a lone surrogate) cannot be encoded. *)
Definition encodable_char (c : char) : bool :=
  (c <? 55296) || ((57343 <? c) && (c <? 1114112)).

Definition encodable (s : pystr) : bool := forallb encodable_char s.

Definition utf8_size (c : char) : N :=
  if c <? 128 then 1 else if c <? 2048 then 2 else if c <? 65536 then 3 else 4.

Definition utf8_length (s : pystr) : N :=
  foldr (λ c n, utf8_size c + n) 0 s.

(** The text as a C string: the part before the first NUL character. *)
Fixpoint c_string (s : pystr) : pystr :=
  match s with
  | [] => []
  | c :: s' => if c =? 0 then [] else c :: c_string s'
  end.

(** ** SQLite's LIKE operator

    [%] matches any run of characters (also the empty one), [_] matches any
    one character, any other character matches itself; the comparison ignores
    the case of the ASCII letters and of no other character (SQLite's default:
    [case_sensitive_like] is off, and no ESCAPE character is given).  [like]
    is the comparison of two C strings; [sql_like] below cuts its operands at
    the first NUL, and a statement fails when it evaluates LIKE with a pattern
    of more than [max_like_pattern] bytes. *)

Definition lower (c : char) : char :=
  if (65 <=? c) && (c <=? 90) then c + 32 else c.


Fixpoint like (pat : pystr) : pystr → bool :=
  match pat with
  | [] => λ s, match s with [] => true | _ :: _ => false end
  | c :: pat' =>
      if c =? percent then
        fix run (s : pystr) : bool :=
          like pat' s || match s with [] => false | _ :: s' => run s' end
      else
        λ s, match s with
             | [] => false
             | d :: s' => ((c =? underscore) || (lower c =? lower d)) && like pat' s'
             end
  end.

(** SQLITE_MAX_LIKE_PATTERN_LENGTH *)
Definition max_like_pattern : N := 50000.



(** ** Values, rows and the declarative schema *)

(** A cell of a row as Python sees it: [None] (SQL NULL), an [int] or a [str]. *)
Inductive value :=
  | VNone
  | VInt (n : Z)
  | VText (s : pystr).

(** [str(v)], which [print] applies to its argument. *)
Definition py_str (v : value) : pystr :=
  match v with
  | VNone => lit "None"
  | VInt n => str_int n
  | VText s => s
  end.

Inductive coltype := Integer | Text.

(** [Column(type, primary_key=.., autoincrement=.., nullable=.., unique=..,
    index=..)]; [nullable] is [None] when the keyword is not given. *)
Record Column := {
  col_name : string;
  col_type : coltype;
  primary_key : bool;
  autoincrement : bool;
  nullable : option bool;
  unique : bool;
  index : bool
}.

Definition Col (name : string) (ty : coltype) : Column :=
  {| col_name := name; col_type := ty; primary_key := false;
     autoincrement := false; nullable := None; unique := false; index := false |}.

Definition with_primary_key (c : Column) : Column :=
  {| col_name := col_name c; col_type := col_type c; primary_key := true;
     autoincrement := autoincrement c; nullable := nullable c;
     unique := unique c; index := index c |}.

Definition with_autoincrement (c : Column) : Column :=
  {| col_name := col_name c; col_type := col_type c; primary_key := primary_key c;
     autoincrement := true; nullable := nullable c;
     unique := unique c; index := index c |}.

Definition with_nullable (b : bool) (c : Column) : Column :=
  {| col_name := col_name c; col_type := col_type c; primary_key := primary_key c;
     autoincrement := autoincrement c; nullable := Some b;
     unique := unique c; index := index c |}.

Definition with_unique (c : Column) : Column :=
  {| col_name := col_name c; col_type := col_type c; primary_key := primary_key c;
     autoincrement := autoincrement c; nullable := nullable c;
     unique := true; index := index c |}.

Definition with_index (c : Column) : Column :=
  {| col_name := col_name c; col_type := col_type c; primary_key := primary_key c;
     autoincrement := autoincrement c; nullable := nullable c;
     unique := unique c; index := true |}.

(** SQLAlchemy's default: a column is nullable unless it is part of the
    primary key. *)
Definition is_nullable (c : Column) : bool :=
  default (negb (primary_key c)) (nullable c).

Definition required (c : Column) : bool := negb (is_nullable c).

(** A class derived from [Base]: [__tablename__] and the columns in the
    order of declaration. *)
Record TableDecl := {
  tablename : string;
  columns : list Column
}.

Definition Content : TableDecl :=
  {| tablename := "content";
     columns :=
       [ with_autoincrement (with_primary_key (Col "id" Integer));
         with_unique (Col "node_id" Integer);
         with_nullable false (Col "title" Text);
         Col "body" Text ] |}.

Definition Flickr : TableDecl :=
  {| tablename := "flickr";
     columns :=
       [ with_autoincrement (with_primary_key (Col "id" Integer));
         with_unique (Col "node_id" Integer);
         Col "photo_id" Integer ] |}.

Definition FlickrDetails : TableDecl :=
  {| tablename := "flickrdetails";
     columns :=
       [ with_primary_key (Col "photo_id" Integer);
         with_nullable false (Col "datetaken" Integer);
         with_nullable false (Col "title" Text);
         with_nullable false (Col "url_c" Text);
         with_nullable false (Col "url_l" Text);
         with_nullable false (Col "url_m" Text);
         with_nullable false (Col "url_n" Text);
         with_nullable false (Col "url_o" Text);
         with_nullable false (Col "url_q" Text);
         with_nullable false (Col "url_s" Text);
         with_nullable false (Col "url_sq" Text);
         with_nullable false (Col "url_t" Text);
         with_nullable false (Col "url_z" Text) ] |}.

Definition History : TableDecl :=
  {| tablename := "history";
     columns :=
       [ with_autoincrement (with_primary_key (Col "id" Integer));
         with_nullable false (Col "node_id" Integer);
         with_nullable false (Col "timestamp" Integer) ] |}.

Definition Lophoto : TableDecl :=
  {| tablename := "lophoto";
     columns :=
       [ with_autoincrement (with_primary_key (Col "id" Integer));
         with_nullable false (Col "node_id" Integer);
         with_nullable false (Col "filename" Text);
         with_nullable false (Col "uri" Text);
         with_nullable false (Col "created" Integer) ] |}.

Definition Node : TableDecl :=
  {| tablename := "node";
     columns :=
       [ with_primary_key (Col "id" Integer);
         with_nullable false (Col "parent_id" Integer);
         with_nullable false (Col "created" Integer);
         with_nullable false (Col "modified" Integer);
         Col "revcnt" Integer;
         Col "type" Text ] |}.

Definition Taxonomy : TableDecl :=
  {| tablename := "taxonomy";
     columns :=
       [ with_autoincrement (with_primary_key (Col "id" Integer));
         with_nullable false (Col "node_id" Integer);
         with_nullable false (Col "term_id" Integer);
         with_nullable false (Col "created" Integer) ] |}.

Definition Term : TableDecl :=
  {| tablename := "term";
     columns :=
       [ with_primary_key (Col "id" Integer);
         with_nullable false (Col "vocabulary_id" Integer);
         with_nullable false (Col "name" Text);
         Col "description" Text ] |}.

Definition Vocabulary : TableDecl :=
  {| tablename := "vocabulary";
     columns :=
       [ with_autoincrement (with_primary_key (Col "id" Integer));
         with_unique (with_nullable false (Col "name" Text));
         Col "description" Text;
         Col "weight" Integer ] |}.

Definition User : TableDecl :=
  {| tablename := "users";
     columns :=
       [ with_autoincrement (with_primary_key (Col "id" Integer));
         with_index (with_unique (with_nullable false (Col "username" Text)));
         Col "password_hash" Text ] |}.

(** [Base.metadata]: every class derived from [Base]. *)
Definition Base_metadata : list TableDecl :=
  [ Content; Flickr; FlickrDetails; History; Lophoto;
    Node; Taxonomy; Term; Vocabulary; User ].

(** The columns of a table that form its primary key. *)
Definition key_columns (t : TableDecl) : list string :=
  map col_name (List.filter primary_key (columns t)).

(** The size-variant URL columns of a table: those named [url_...]. *)
Definition is_url_column (c : Column) : bool :=
  String.prefix "url_" (col_name c).

Definition url_columns (t : TableDecl) : list Column :=
  List.filter is_url_column (columns t).

(** ** Database files, the file system and the standard output *)

(** A row holds one cell per column of its table, in declaration order. *)
Abbreviation Row := (list value).

Record Table := {
  tbl_decl : TableDecl;
  tbl_rows : list Row
}.

(** The contents of a database file: its tables by name.  The file SQLite
    creates when it opens a path that does not exist holds no table. *)
Abbreviation Database := (gmap string Table).

Record World := {
  fs : gmap pystr Database;   (* the database files, by path *)
  dirs : gset pystr;          (* the directories, by path *)
  stdout : list pystr         (* the lines written by [print], oldest first *)
}.

Definition set_fs (f : gmap pystr Database → gmap pystr Database) (w : World) : World :=
  {| fs := f (fs w); dirs := dirs w; stdout := stdout w |}.

(** ** Paths *)

Definition slash : char := 47.          (* '/' *)
Definition question : char := 63.       (* '?' *)

Fixpoint take_until (stop : char) (s : pystr) : pystr :=
  match s with
  | [] => []
  | c :: s' => if c =? stop then [] else c :: take_until stop s'
  end.

Fixpoint drop_until (stop : char) (s : pystr) : pystr :=
  match s with
  | [] => []
  | c :: s' => if c =? stop then s else drop_until stop s'
  end.

Fixpoint drop_all (skip : char) (s : pystr) : pystr :=
  match s with
  | [] => []
  | c :: s' => if c =? skip then drop_all skip s' else s
  end.

(** [os.path.dirname] and [os.path.basename] *)
Definition dirname (p : pystr) : pystr :=
  let head := drop_until slash (rev p) in
  if forallb (λ c, c =? slash) head then rev head
  else rev (drop_all slash head).

Definition basename (p : pystr) : pystr :=
  rev (take_until slash (rev p)).

(** The names at which SQLite opens a private, initially empty database that
    is no file: the empty name and [:memory:]. *)
Definition is_transient (p : pystr) : bool :=
  bool_decide (p = []) || bool_decide (p = lit ":memory:").

(** A file can be created at a path that names no directory, under a name of
    at most 255 bytes, in a directory that exists (the working directory and
    the root always do). *)
Definition creatable (w : World) (p : pystr) : bool :=
  negb (bool_decide (p ∈ dirs w))
  && negb (bool_decide (basename p = []))
  && negb (bool_decide (basename p = lit "."))
  && negb (bool_decide (basename p = lit ".."))
  && (utf8_length (basename p) <=? 255)
  && (forallb (λ c, c =? slash) (dirname p) || bool_decide (dirname p ∈ dirs w)).

(** ** Exceptions and the monad of the scripts *)

Inductive exn :=
  | KeyError (key : string)
  | FileNotFoundError (path : pystr)
  | ArgumentError (url : pystr)
  | UnableToOpen (path : pystr)               (* OperationalError: unable to open database file *)
  | NoSuchTable (name : string)               (* OperationalError: no such table *)
  | NoSuchColumn (table column : string)      (* OperationalError: no such column *)
  | PatternTooComplex                         (* OperationalError: LIKE or GLOB pattern too complex *)
  | UnicodeEncodeError.

Inductive outcome (A : Type) :=
  | Returns (a : A)
  | Raises (e : exn).
Arguments Returns {A} a.
Arguments Raises {A} e.

Definition M (A : Type) : Type := World → outcome A * World.

Definition ret {A} (a : A) : M A := λ w, (Returns a, w).

Definition raise {A} (e : exn) : M A := λ w, (Raises e, w).

Definition bind {A B} (m : M A) (k : A → M B) : M B :=
  λ w, match m w with
       | (Returns a, w') => k a w'
       | (Raises e, w') => (Raises e, w')
       end.

Notation "'let*' x ':=' m 'in' k" := (bind m (λ x, k))
  (at level 10, x pattern, m at level 100, k at level 200).
Notation "m ';;' k" := (bind m (λ _, k))
  (at level 100, k at level 200, right associativity).

(** [for x in l: ...] over a loop variable [s] that the body updates. *)
Fixpoint for_ {A S} (l : list A) (s : S) (body : A → S → M S) : M S :=
  match l with
  | [] => ret s
  | x :: l' => let* s' := body x s in for_ l' s' body
  end.

(** [print(v)] *)
Definition print (v : value) : M unit :=
  λ w, (Returns tt,
        {| fs := fs w; dirs := dirs w; stdout := stdout w ++ [py_str v] |}).

(** [d[k]] on a mapping, a [KeyError] when the key is missing. *)
Definition getitem {V} (d : gmap string V) (k : string) : M V :=
  match d !! k with
  | Some v => ret v
  | None => raise (KeyError k)
  end.

Abbreviation Config := (gmap string (gmap string pystr)).

(** ** The library calls

    [os.remove(path)]: removes the file, [FileNotFoundError] when there is
    none. *)
Definition os_remove (path : pystr) : M unit :=
  λ w, match fs w !! path with
       | Some _ => (Returns tt, set_fs (delete path) w)
       | None => (Raises (FileNotFoundError path), w)
       end.

Record Connection := { conn_database : pystr }.
Record Cursor := { cur_connection : Connection }.

(** [sqlite3.connect(path)]: opens the file.  A path with no file gets a new,
    empty database file when one can be created there, and the call fails
    with "unable to open database file" when not.  At a transient name no
    file is opened or created. *)
Definition sqlite3_connect (path : pystr) : M Connection :=
  λ w, if is_transient path then (Returns {| conn_database := path |}, w)
       else match fs w !! path with
            | Some _ => (Returns {| conn_database := path |}, w)
            | None =>
                if creatable w path
                then (Returns {| conn_database := path |}, set_fs <[path := ∅]> w)
                else (Raises (UnableToOpen path), w)
            end.

Definition cursor (c : Connection) : Cursor := {| cur_connection := c |}.

(** The database a connection reads.  A transient database is read as
    empty: the code never reads one it has written to. *)
Definition db_of (w : World) (c : Connection) : Database :=
  if is_transient (conn_database c) then ∅
  else match fs w !! conn_database c with
       | Some d => d
       | None => ∅
       end.

(** The position of a column in a list of columns, by name. *)
Fixpoint column_index (name : string) (cols : list Column) : option nat :=
  match cols with
  | [] => None
  | c :: cols' =>
      if String.eqb name (col_name c) then Some 0%nat
      else S <$> column_index name cols'
  end.

(** The first column of the entity that the table of the file lacks. *)
Definition missing_column (entity file : TableDecl) : option string :=
  col_name <$> List.find (λ c, bool_decide (column_index (col_name c) (columns file) = None))
                         (columns entity).

(** The cells of a row of the file's table, in the order of the entity's
    columns. *)
Definition project (entity file : TableDecl) (r : Row) : Row :=
  map (λ c, match column_index (col_name c) (columns file) with
            | Some i => nth i r VNone
            | None => VNone
            end) (columns entity).

(** [SELECT entity.c1, ..., entity.cn FROM entity WHERE cond], with the LIKE
    patterns [patterns] bound as parameters.  The statement is prepared (the
    table and every column named must exist), the parameters are bound (each
    must be encodable), and the rows are read one by one: the rows for which
    the condition is true are returned; NULL (here [None]) is not true, and a
    LIKE with a pattern over the limit fails on the first row it meets. *)
Definition select (c : Connection) (entity : TableDecl) (patterns : list pystr)
    (cond : Row → option bool) : M (list Row) :=
  λ w, match db_of w c !! tablename entity with
       | None => (Raises (NoSuchTable (tablename entity)), w)
       | Some t =>
           match missing_column entity (tbl_decl t) with
           | Some col => (Raises (NoSuchColumn (tablename entity) col), w)
           | None =>
               if negb (forallb encodable patterns) then (Raises UnicodeEncodeError, w)
               else
                 let rows := map (project entity (tbl_decl t)) (tbl_rows t) in
                 match rows with
                 | _ :: _ =>
                     if existsb (λ p, max_like_pattern <? utf8_length p) patterns
                     then (Raises PatternTooComplex, w)
                     else (Returns (List.filter (λ r, bool_decide (cond r = Some true)) rows), w)
                 | [] => (Returns [], w)
                 end
           end
       end.

Definition has_table (c : Connection) (name : string) : M bool :=
  λ w, (Returns (bool_decide (is_Some (db_of w c !! name))), w).

(** [CREATE TABLE]: a new table with no rows. *)
Definition create_table (c : Connection) (t : TableDecl) : M unit :=
  λ w, if is_transient (conn_database c) then (Returns tt, w)
       else (Returns tt,
             set_fs <[conn_database c :=
                        <[tablename t := {| tbl_decl := t; tbl_rows := [] |}]> (db_of w c)]> w).

Fixpoint removeprefix (p s : pystr) : option pystr :=
  match p, s with
  | [], _ => Some s
  | _ :: _, [] => None
  | c :: p', d :: s' => if c =? d then removeprefix p' s' else None
  end.

Record Engine := { database : pystr; engine_echo : bool }.

(** [create_engine(url, echo=..)] reads the URL and connects to nothing: the
    engine opens its database on first use.  In a URL [sqlite:///...] the
    database is what stands between the third slash and the first [?]; what
    follows the [?] is the query string, which is not interpreted here.  (The
    code passes no other kind of URL.) *)
Definition create_engine (conn_string : pystr) (echo : bool) : M Engine :=
  match removeprefix (lit "sqlite:///") conn_string with
  | Some rest => ret {| database := take_until question rest; engine_echo := echo |}
  | None => raise (ArgumentError conn_string)
  end.

(** The engine opens the file its URL names, or the [:memory:] database when
    the URL names none. *)
Definition engine_connect (e : Engine) : M Connection :=
  sqlite3_connect (match database e with
                   | [] => lit ":memory:"
                   | _ :: _ => database e
                   end).

(** [MetaData.create_all(engine)]: creates the tables that the database does
    not hold yet. *)
Definition create_all (metadata : list TableDecl) (engine : Engine) : M unit :=
  let* c := engine_connect engine in
  let* _ := for_ metadata tt (λ t _,
              let* present := has_table c (tablename t) in
              if present : bool then ret tt else create_table c t) in
  ret tt.

Record Session := { bind_engine : Engine }.

(** [sessionmaker(bind=engine)] and the call of the class it returns. *)
Definition sessionmaker (engine : Engine) : unit → Session :=
  λ _, {| bind_engine := engine |}.

(** A filter criterion: its value on a row (SQL's three-valued logic) and
    the LIKE patterns it binds. *)
Record Criterion := {
  crit_patterns : list pystr;
  crit_eval :> Row → option bool
}.

(** [session.query(Entity)], [.filter(criterion)] and [.all()]. *)
Record Query := {
  q_session : Session;
  q_entity : TableDecl;
  q_criteria : list Criterion
}.

Definition query (s : Session) (entity : TableDecl) : Query :=
  {| q_session := s; q_entity := entity; q_criteria := [] |}.

Definition filter_ (q : Query) (criterion : Criterion) : Query :=
  {| q_session := q_session q; q_entity := q_entity q;
     q_criteria := q_criteria q ++ [criterion] |}.

(** SQL's three-valued AND. *)
Definition sql_and (a b : option bool) : option bool :=
  match a, b with
  | Some false, _ | _, Some false => Some false
  | Some true, Some true => Some true
  | _, _ => None
  end.

Definition all (q : Query) : M (list Row) :=
  let* c := engine_connect (bind_engine (q_session q)) in
  select c (q_entity q)
    (concat (map crit_patterns (q_criteria q)))
    (λ r, foldr (λ (crit : Criterion) acc, sql_and (crit r) acc) (Some true)
                (q_criteria q)).

(** The attribute [Entity.name] of a loaded row, and the column expression of
    the same name. *)
Definition attr (entity : TableDecl) (name : string) (r : Row) : value :=
  match column_index name (columns entity) with
  | Some i => nth i r VNone
  | None => VNone
  end.

(** [x LIKE pattern]: NULL when [x] is NULL; a number is compared as its
    text; both operands end at their first NUL. *)
Definition sql_like (x : value) (pattern : pystr) : option bool :=
  match x with
  | VNone => None
  | VInt n => Some (like (c_string pattern) (c_string (str_int n)))
  | VText s => Some (like (c_string pattern) (c_string s))
  end.

(** [column.like(pattern)] *)
Definition col_like (column : Row → value) (pattern : pystr) : Criterion :=
  {| crit_patterns := [pattern];
     crit_eval := λ r, sql_like (column r) pattern |}.

(** ** lib/tuin_store.py *)

Definition set_engine (conn_string : pystr) (echo : bool) : M Engine :=
  let* engine := create_engine conn_string echo in
  ret engine.

Definition set_session4engine (engine : Engine) : M Session :=
  let session_class := sessionmaker engine in
  let session := session_class tt in
  ret session.

Definition init_session (db : pystr) (echo : bool) : M Session :=
  let conn_string := lit "sqlite:///" ++ db in
  let* engine := set_engine conn_string echo in
  let* session := set_session4engine engine in
  ret session.

(** [dbConn] and [cur] hold the placeholder [""] (here [None]) until
    [rebuild] connects. *)
Record DirectConn := {
  db : pystr;
  dbConn : option Connection;
  cur : option Cursor
}.

Definition DirectConn_init (config : Config) : M DirectConn :=
  let* main := getitem config "Main" in
  let* path := getitem main "db" in
  ret {| db := path; dbConn := None; cur := None |}.

Definition _connect2db (self : DirectConn) : M (Connection * Cursor) :=
  let* db_conn := sqlite3_connect (db self) in
  ret (db_conn, cursor db_conn).

(** [rebuild] mutates [self]; the updated object is returned. *)
Definition rebuild (self : DirectConn) : M DirectConn :=
  os_remove (db self) ;;
  let* handles := _connect2db self in
  let '(conn, c) := handles in
  let self := {| db := db self; dbConn := Some conn; cur := Some c |} in
  let conn_string := lit "sqlite:///" ++ db self in
  let* engine := set_engine conn_string false in
  create_all Base_metadata engine ;;
  ret self.

(** ** find_link.py

    [cfg] is what [my_env.init_env] returns; the logging calls write to the
    log, not to the standard output, and are left out. *)

Definition str2find : pystr := lit "snoeitechnieken-en-onderhoud/plantenfamilies".

(** ["%{s2r}%".format(s2r=...)] *)
Definition like_pattern (s2r : pystr) : pystr := lit "%" ++ s2r ++ lit "%".

(** The criterion [Content.body.like("%{s2r}%".format(s2r=...))]. *)
Definition body_like (s2r : pystr) : Criterion :=
  col_like (attr Content "body") (like_pattern s2r).

(** [tuin.query(Content).filter(...).all()] *)
Definition find_contents (s2r : pystr) (tuin : Session) : M (list Row) :=
  all (filter_ (query tuin Content) (body_like s2r)).

Definition find_link (cfg : Config) : M unit :=
  let* main := getitem cfg "Main" in
  let* db := getitem main "db" in
  let* tuin := init_session db false in
  let* contents := find_contents str2find tuin in
  let cnt := 0%Z in
  let* cnt := for_ contents cnt (λ content cnt,
                let cnt := (cnt + 1)%Z in
                print (attr Content "title" content) ;;
                ret cnt) in
  print (VText (lit "Count: " ++ str_int cnt)).

(** ** Notions used in the statements *)

(** The path the configuration gives under [Main] / [db]. *)
Definition config_db (cfg : Config) : option pystr :=
  cfg !! "Main" ≫= λ main, main !! "db".














(** The constructor call [DirectConn(config)] followed by [rebuild()]. *)
Definition rebuild_from (config : Config) : M DirectConn :=
  let* self := DirectConn_init config in rebuild self.

(** The columns of a table that carry a given flag, by name. *)
Definition flagged (flag : Column → bool) (t : TableDecl) : list (string * string) :=
  map (λ c, (tablename t, col_name c)) (List.filter flag (columns t)).

(** ** Sample inputs *)

Definition tuin_db : pystr := lit "tuin.db".


Definition content_row (i : Z) (title : string) (body : value) : Row :=
  [VInt i; VInt i; VText (lit title); body].

Definition body_exact : pystr :=
  lit "<a href=/snoeitechnieken-en-onderhoud/plantenfamilies/rosaceae>".




Definition row_exact : Row := content_row 1 "Rosaceae" (VText body_exact).

Definition content_of (rows : list Row) : Table :=
  {| tbl_decl := Content; tbl_rows := rows |}.

Definition world_of (rows : list Row) : World :=
  {| fs := {[ tuin_db := {[ "content" := content_of rows ]} ]};
     dirs := ∅; stdout := [] |}.


Definition cfg_no_main : Config := ∅.
Definition cfg_no_db : Config := {[ "Main" := ∅ ]}.







(** A file that bears the name [:memory:], and a configuration that gives
    that name. *)
Definition memory_name : pystr := lit ":memory:".

Definition cfg_memory : Config := {[ "Main" := {[ "db" := memory_name ]} ]}.

Definition world_memory : World :=
  {| fs := {[ memory_name := ∅ ]}; dirs := ∅; stdout := [] |}.


(** ** Lemmas on substrings *)

Lemma startswith_spec (sub s : pystr) :
  startswith sub s = true ↔ ∃ post, s = sub ++ post.
Proof.
  revert s; induction sub as [|c sub IH]; intros s; simpl.
  - split; [intros _; by exists s | done].
  - destruct s as [|d s].
    + split; [done | intros [post Hp]; done].
    + rewrite andb_true_iff, N.eqb_eq, IH. split.
      * intros [-> [post ->]]. by exists post.
      * intros [post Hp]. injection Hp as -> ->. split; [done | by exists post].
Qed.

Lemma contains_spec (sub s : pystr) :
  contains sub s = true ↔ ∃ pre post, s = pre ++ sub ++ post.
Proof.
  induction s as [|d s IH]; simpl.
  - rewrite orb_false_r, startswith_spec. split.
    + intros [post Hp]. by exists [], post.
    + intros [pre [post Hp]]. destruct pre; [by exists post|done].
  - rewrite orb_true_iff, startswith_spec, IH. split.
    + intros [[post Hp] | [pre [post ->]]].
      * by exists [], post.
      * by exists (d :: pre), post.
    + intros [pre [post Hp]]. destruct pre as [|e pre]; simpl in Hp.
      * left. by exists post.
      * right. injection Hp as -> ->. by exists pre, post.
Qed.



(** ** Lemmas on LIKE *)

Lemma like_percent (p s : pystr) :
  like (percent :: p) s =
  like p s || match s with [] => false | _ :: s' => like (percent :: p) s' end.
Proof. destruct s; reflexivity. Qed.

Lemma like_char (c : char) (p s : pystr) :
  c ≠ percent →
  like (c :: p) s =
  match s with
  | [] => false
  | d :: s' => ((c =? underscore) || (lower c =? lower d)) && like p s'
  end.
Proof. intros Hc. apply N.eqb_neq in Hc. simpl. by rewrite Hc. Qed.

Lemma like_nil (s : pystr) : like [] s = true ↔ s = [].
Proof. destruct s; simpl; split; done. Qed.

Lemma like_percent_spec (p s : pystr) :
  like (percent :: p) s = true ↔ ∃ pre rest, s = pre ++ rest ∧ like p rest = true.
Proof.
  induction s as [|d s IH]; rewrite like_percent, orb_true_iff.
  - split.
    + intros [H|H]; [by exists [], [] | done].
    + intros (pre & rest & Hs & H). left.
      symmetry in Hs. apply app_eq_nil in Hs as [_ ->]. done.
  - rewrite IH. split.
    + intros [H | (pre & rest & -> & H)].
      * by exists [], (d :: s).
      * by exists (d :: pre), rest.
    + intros (pre & rest & Hs & H). destruct pre as [|e pre]; simpl in Hs.
      * left. by subst rest.
      * right. injection Hs as -> ->. by exists pre, rest.
Qed.

Lemma like_app (p1 p2 s1 s2 : pystr) :
  like p1 s1 = true → like p2 s2 = true → like (p1 ++ p2) (s1 ++ s2) = true.
Proof.
  revert s1; induction p1 as [|c p1 IH]; intros s1 H1 H2.
  - apply like_nil in H1 as ->. done.
  - destruct (decide (c = percent)) as [->|Hc].
    + apply like_percent_spec in H1 as (pre & rest & -> & H1).
      simpl app at 1. apply like_percent_spec.
      exists pre, (rest ++ s2). rewrite <-app_assoc. split; [done | by apply IH].
    + rewrite like_char in H1 by done.
      simpl app at 1. rewrite like_char by done.
      destruct s1 as [|d s1]; [done|]. simpl.
      apply andb_true_iff in H1 as [-> H1]. simpl. by apply IH.
Qed.

Lemma lower_eqb_refl (c : char) : (lower c =? lower c) = true.
Proof. apply N.eqb_refl. Qed.

Lemma like_one (c d : char) :
  c = underscore ∨ lower c = lower d → c ≠ percent → like [c] [d] = true.
Proof.
  intros H Hc. rewrite like_char by done. rewrite andb_true_r, orb_true_iff.
  destruct H as [->| ->]; [left | right]; apply N.eqb_refl.
Qed.

Lemma like_any (s : pystr) : like [percent] s = true.
Proof. apply like_percent_spec. exists s, []. by rewrite app_nil_r. Qed.

Lemma like_refl (p : pystr) : like p p = true.
Proof.
  induction p as [|c p IH]; [done|].
  change (c :: p) with ([c] ++ p). apply like_app; [|done].
  destruct (decide (c = percent)) as [->|Hc]; [apply like_any|].
  apply like_one; auto.
Qed.


Lemma like_pattern_cons (s2r : pystr) :
  like_pattern s2r = percent :: s2r ++ [percent].
Proof. reflexivity. Qed.


(** Whatever the search string, a text that contains it literally is
    selected. *)
Lemma like_pattern_contains (s2r b : pystr) :
  contains s2r b = true → like (like_pattern s2r) b = true.
Proof.
  rewrite contains_spec. intros (pre & post & ->).
  rewrite like_pattern_cons. apply like_percent_spec.
  exists pre, (s2r ++ post). split; [done|].
  apply like_app; [apply like_refl | apply like_any].
Qed.





(** ** Lemmas on C strings *)
















(** ** Lemmas on paths and on the library calls *)














(** ** Lemmas on [select] *)











(** ** Lemmas on queries and on the script *)












(** ** Lemmas on [create_all] and [rebuild] *)




Lemma creatable_set_fs (f : gmap pystr Database → gmap pystr Database)
    (w : World) (p : pystr) :
  creatable (set_fs f w) p = creatable w p.
Proof. reflexivity. Qed.











(** * The properties of the query script *)













(** * The properties of the connection manager *)






(** C7, as stated, fails: the size-variant URL columns of FlickrDetails are
    not twelve. *)
Lemma FlickrDetails_not_twelve_urls :
  length (url_columns FlickrDetails) ≠ 12%nat.
Proof. vm_compute. discriminate. Qed.

(** C7, amended. FlickrDetails is keyed by [photo_id] and declares, besides
    the capture timestamp and the title, exactly ten size-variant URL columns,
    all of them required; with the timestamp and the title that makes twelve
    required columns next to the key. *)
Theorem FlickrDetails_ten_urls :
  key_columns FlickrDetails = ["photo_id"] ∧
  columns FlickrDetails =
    with_primary_key (Col "photo_id" Integer)
    :: with_nullable false (Col "datetaken" Integer)
    :: with_nullable false (Col "title" Text)
    :: url_columns FlickrDetails ∧
  length (url_columns FlickrDetails) = 10%nat ∧
  forallb required (url_columns FlickrDetails) = true ∧
  map col_name (url_columns FlickrDetails) =
    ["url_c"; "url_l"; "url_m"; "url_n"; "url_o";
     "url_q"; "url_s"; "url_sq"; "url_t"; "url_z"] ∧
  length (List.filter required (List.filter (λ c, negb (primary_key c))
                                  (columns FlickrDetails))) = 12%nat.
Proof. repeat split; reflexivity. Qed.












(** * Further properties of the query script *)

(** X1. A configuration without the [Main] section, or without [db] in it,
    stops the script with a [KeyError] on the missing key before a session is
    opened: nothing is printed and no file is touched. *)
Theorem find_link_missing_key (cfg : Config) (w : World) :
  config_db cfg = None →
  ∃ key, (key = "Main" ∧ cfg !! "Main" = None ∨
          key = "db" ∧ is_Some (cfg !! "Main")) ∧
         find_link cfg w = (Raises (KeyError key), w).
Proof.
  unfold config_db, find_link, getitem. intros Hc.
  destruct (cfg !! "Main") as [main|] eqn:Hm.
  - simpl in Hc. exists "db". split; [right; by eauto|].
    unfold bind at 1. unfold ret at 1. by rewrite Hc.
  - exists "Main". split; [by left | done].
Qed.

Lemma find_link_missing_key_witness :
  config_db cfg_no_db = None ∧
  ∃ key, (key = "Main" ∧ cfg_no_db !! "Main" = None ∨
          key = "db" ∧ is_Some (cfg_no_db !! "Main")) ∧
         find_link cfg_no_db (world_of [row_exact]) =
         (Raises (KeyError key), world_of [row_exact]).
Proof.
  split; [reflexivity|].
  apply (find_link_missing_key cfg_no_db (world_of [row_exact])). reflexivity.
Defined.







(** * Further properties of the pattern *)








(** X8. With the empty search string the criterion holds for every row whose
    body is not NULL and for no row whose body is NULL. *)
Theorem body_like_empty (row : Row) :
  body_like [] row =
  match attr Content "body" row with
  | VNone => None
  | _ => Some true
  end.
Proof.
  unfold body_like, col_like, sql_like. cbn [crit_eval].
  destruct (attr Content "body" row) as [|n|s]; [done| |];
    (change (c_string (like_pattern [])) with (like_pattern []);
     rewrite like_pattern_contains; [done|]).
  - by destruct (c_string (str_int n)).
  - by destruct (c_string s).
Qed.

(** * Further properties of the connection manager *)

(** X9. With a configuration that lacks [Main] or [db], the constructor
    raises a [KeyError] on the missing key, so [rebuild] is not reached: no
    file is removed or created. *)
Theorem rebuild_missing_key (cfg : Config) (w : World) :
  config_db cfg = None →
  ∃ key, (key = "Main" ∧ cfg !! "Main" = None ∨
          key = "db" ∧ is_Some (cfg !! "Main")) ∧
         rebuild_from cfg w = (Raises (KeyError key), w).
Proof.
  unfold config_db, rebuild_from, DirectConn_init, getitem. intros Hc.
  destruct (cfg !! "Main") as [main|] eqn:Hm.
  - simpl in Hc. exists "db". split; [right; by eauto|].
    unfold bind at 1. unfold bind at 1. unfold ret at 1. by rewrite Hc.
  - exists "Main". split; [by left | done].
Qed.

Lemma rebuild_missing_key_witness :
  config_db cfg_no_main = None ∧
  ∃ key, (key = "Main" ∧ cfg_no_main !! "Main" = None ∨
          key = "db" ∧ is_Some (cfg_no_main !! "Main")) ∧
         rebuild_from cfg_no_main (world_of [row_exact]) =
         (Raises (KeyError key), world_of [row_exact]).
Proof.
  split; [reflexivity|].
  apply (rebuild_missing_key cfg_no_main (world_of [row_exact])). reflexivity.
Defined.






(** With a file that bears the name [:memory:], [rebuild] returns once, the
    file is gone, and a second [rebuild] finds no file to remove. *)
Lemma rebuild_memory_name_once :
  ∃ self' w',
    rebuild_from cfg_memory world_memory = (Returns self', w') ∧
    fs w' !! memory_name = None ∧
    rebuild self' w' = (Raises (FileNotFoundError memory_name), w').
Proof. eexists _, _. repeat split; vm_compute; reflexivity. Qed.







(** An engine on the name [:memory:] and a file that bears that name: the
    tables go to SQLite's in-memory database and the file stays as it is. *)
Lemma create_all_memory_name :
  create_all Base_metadata {| database := memory_name; engine_echo := false |}
    world_memory = (Returns tt, world_memory).
Proof. vm_compute. reflexivity. Qed.



(** * Further properties of the schema *)

(** X17. The declarations are well formed: no two classes share a table
    name, no table declares a column name twice, and every table has exactly
    one primary-key column, which is an Integer and is not nullable. *)
Theorem Base_metadata_well_formed :
  NoDup (map tablename Base_metadata) ∧
  Forall (λ t, NoDup (map col_name (columns t)) ∧
               ∃ key, List.filter primary_key (columns t) = [key] ∧
                      col_type key = Integer ∧ is_nullable key = false)
         Base_metadata.
Proof.
  split; [compute_done|].
  repeat (apply Forall_cons; split;
          [split; [compute_done | by eexists; split; [reflexivity|] ]|]).
  apply Forall_nil_2.
Qed.

(** X18. The declared constraints, over all tables: uniqueness on
    content.node_id, flickr.node_id, vocabulary.name and users.username and
    on no other column; an index on users.username only; and the columns that
    allow NULL are the ten listed. *)
Theorem Base_metadata_constraints :
  concat (map (flagged unique) Base_metadata) =
    [("content", "node_id"); ("flickr", "node_id");
     ("vocabulary", "name"); ("users", "username")] ∧
  concat (map (flagged index) Base_metadata) = [("users", "username")] ∧
  concat (map (flagged is_nullable) Base_metadata) =
    [("content", "node_id"); ("content", "body");
     ("flickr", "node_id"); ("flickr", "photo_id");
     ("node", "revcnt"); ("node", "type");
     ("term", "description");
     ("vocabulary", "description"); ("vocabulary", "weight");
     ("users", "password_hash")].
Proof. repeat split; reflexivity. Qed.
